(** * StudyBot: entitlement, catalogue paging and admin ingestion

    A shallow embedding of the handlers of [Ankit.py] (the single-file
    Telegram study bot) and the properties of its specification.

    Conventions of the embedding:
    - Python [str] values are [string]s holding the UTF-8 bytes of the text;
      whitespace is the ASCII part of [str.isspace] (code points beyond
      ASCII are never treated as whitespace or digits).
    - Python [int] values are [Z]; SQLite INTEGER columns are [Z] and TEXT
      columns are [string].
    - The SQLite database is a record of tables; every
      [with db() as con: con.execute(..); con.commit()] block is one atomic
      update of that record.
    - Calls on the messaging client are logged in a trace; each call may
      raise, as decided by a transport oracle. *)

From Stdlib Require Import ZArith String Ascii List Sorting.Sorted.
From stdpp Require Import base option list gmap strings pretty sorting.

Open Scope string_scope.
Open Scope Z_scope.
Open Scope list_scope.

(** ** Python string builtins used by the handlers *)

Module Py.

(** [str.isspace] on one ASCII character. *)
Definition isspace (c : ascii) : bool :=
  match c with
  | "009" | "010" | "011" | "012" | "013"
  | "028" | "029" | "030" | "031" | " " => true
  | _ => false
  end%char.

Fixpoint lstrip (s : string) : string :=
  match s with
  | String c s' => if isspace c then lstrip s' else s
  | EmptyString => EmptyString
  end.

Definition rstrip (s : string) : string :=
  String.rev (lstrip (String.rev s)).

(** [s.strip()] *)
Definition strip (s : string) : string := rstrip (lstrip s).

Fixpoint lstrip_char (ch : ascii) (s : string) : string :=
  match s with
  | String c s' => if Ascii.eqb c ch then lstrip_char ch s' else s
  | EmptyString => EmptyString
  end.

(** [s.strip(ch)] for a one-character [ch] *)
Definition strip_char (ch : ascii) (s : string) : string :=
  String.rev (lstrip_char ch (String.rev (lstrip_char ch s))).

(** [s.split(sep)] for a one-character separator: never empty. *)
Fixpoint split (sep : ascii) (s : string) : list string :=
  match s with
  | EmptyString => [EmptyString]
  | String c s' =>
      if Ascii.eqb c sep then EmptyString :: split sep s'
      else match split sep s' with
           | f :: fs => String c f :: fs
           | [] => [String c EmptyString]
           end
  end.

(** [s.split(sep, 1)] for a one-character separator: one or two pieces. *)
Fixpoint split1 (sep : ascii) (s : string) : list string :=
  match s with
  | EmptyString => [EmptyString]
  | String c s' =>
      if Ascii.eqb c sep then [EmptyString; s']
      else match split1 sep s' with
           | f :: fs => String c f :: fs
           | [] => [String c EmptyString]
           end
  end.

(** The first whitespace-delimited word of [s] and what follows it. *)
Fixpoint word (s : string) : string * string :=
  match s with
  | EmptyString => (EmptyString, EmptyString)
  | String c s' =>
      if isspace c then (EmptyString, s)
      else let '(w, r) := word s' in (String c w, r)
  end.

(** [s.split()] : runs of whitespace separate the words, none is empty. *)
Fixpoint split_ws_go (cur : option string) (s : string) : list string :=
  match s with
  | EmptyString => option_list (String.rev <$> cur)
  | String c s' =>
      if isspace c
      then option_list (String.rev <$> cur) ++ split_ws_go None s'
      else split_ws_go (Some (String c (default EmptyString cur))) s'
  end.
Definition split_ws : string -> list string := split_ws_go None.

(** [s.split(maxsplit=1)] : the first word, then the rest of the text from
    its first non-blank character to the very end (if there is one). *)
Definition split_ws1 (s : string) : list string :=
  match lstrip s with
  | EmptyString => []
  | s0 =>
      let '(w, r) := word s0 in
      match lstrip r with
      | EmptyString => [w]
      | r0 => [w; r0]
      end
  end.

Fixpoint digits_go (after_digit : bool) (acc : Z) (s : string) : option Z :=
  match s with
  | EmptyString => if after_digit then Some acc else None
  | String c s' =>
      match Ascii.is_nat c with
      | Some d => digits_go true (10 * acc + Z.of_nat d) s'
      | None =>
          if Ascii.eqb c "_" && after_digit then digits_go false acc s'
          else None
      end
  end.

(** [int(s)] in base ten: blanks around, an optional sign, digits with
    single underscores between them; [None] stands for [ValueError]. *)
Definition int (s : string) : option Z :=
  match strip s with
  | String "-" d => Z.opp <$> digits_go false 0 d
  | String "+" d => digits_go false 0 d
  | d => digits_go false 0 d
  end.

(** [str(n)] and the [{n}] of an f-string *)
Definition str (n : Z) : string := pretty n.

(** truth value of a [str] *)
Definition truthy (s : string) : bool :=
  match s with EmptyString => false | _ => true end.

(** [items[start:stop]] on a list, with Python's clamping of the bounds. *)
Definition clamp (len i : Z) : Z :=
  if i <? 0 then Z.max 0 (i + len) else Z.min i len.

Definition slice {A} (l : list A) (start stop : Z) : list A :=
  let len := Z.of_nat (length l) in
  let lo := clamp len start in
  let hi := clamp len stop in
  take (Z.to_nat (hi - lo)) (drop (Z.to_nat lo) l).

End Py.

(** ** Configuration and constants *)

Record config := {
  ADMIN_IDS : gset Z;
  PAYMENT_UPI_ID : string;
  PAYMENT_NOTE : string;
  RAZORPAY_AVAILABLE : bool;
  RAZORPAY_KEY_ID : option string;
  RAZORPAY_KEY_SECRET : option string;
}.

Definition CLASSES : list string := ["9"; "10"; "11"; "12"].
Definition CATEGORIES : list string :=
  ["Short Notes"; "PYQ"; "Sample Papers"; "Handwritten Notes";
   "Test Series"; "Quizzes"].

Definition PAGE_SIZE : Z := 8.

Record plan := { months : Z; amount : Z; plan_label : string }.

(** The [PLANS] dict, in insertion order (the order of [PLANS.keys()]). *)
Definition PLANS : list (string * plan) :=
  [("1m", {| months := 1; amount := 9900; plan_label := "1 Month ₹99" |});
   ("3m", {| months := 3; amount := 24900; plan_label := "3 Months ₹249" |});
   ("12m", {| months := 12; amount := 69900; plan_label := "12 Months ₹699" |})].

(** [PLANS.get(key)] *)
Definition PLANS_get (key : string) : option plan :=
  (list_to_map PLANS : gmap string plan) !! key.

(** The values the premium flag of a caption or quiz line is read from. *)
Definition TRUE_WORDS : list string := ["1"; "true"; "True"; "yes"; "Y"].

Definition is_admin (cfg : config) (user_id : Z) : bool :=
  bool_decide (user_id ∈ ADMIN_IDS cfg).

(** [RAZORPAY_AVAILABLE and RAZORPAY_KEY_ID and RAZORPAY_KEY_SECRET] *)
Definition razorpay_ready (cfg : config) : bool :=
  RAZORPAY_AVAILABLE cfg
  && from_option Py.truthy false (RAZORPAY_KEY_ID cfg)
  && from_option Py.truthy false (RAZORPAY_KEY_SECRET cfg).

(** ** The SQLite store *)

(** Rows of [users], keyed by the UNIQUE column [tg_id]; the surrogate [id]
    of this table is read by no statement and is left out. *)
Record user_row := {
  u_name : string;
  u_is_premium : Z;
  u_joined_at : string;
}.

Record content_row := {
  c_id : Z;
  c_class_num : string;
  c_category : string;
  c_subject : string;
  c_chapter : string;
  c_title : string;
  c_file_id : string;
  c_premium : Z;
  c_created_at : string;
}.

Record quiz_row := {
  q_id : Z;
  q_class_num : string;
  q_subject : string;
  q_chapter : string;
  q_question : string;
  q_option1 : string;
  q_option2 : string;
  q_option3 : string;
  q_option4 : string;
  q_correct_index : Z;
  q_premium : Z;
  q_created_at : string;
}.

Record purchase_row := {
  p_id : Z;
  p_tg_id : Z;
  p_txn_id : string;
  p_plan : string;
  p_created_at : string;
}.

Record database := {
  users : gmap Z user_row;
  content : list content_row;
  quizzes : list quiz_row;
  purchases : list purchase_row;
}.

Definition empty_db : database :=
  {| users := ∅; content := []; quizzes := []; purchases := [] |}.

(** AUTOINCREMENT on a table no row is ever deleted from: one more than the
    largest id in use. *)
Definition next_id (ids : list Z) : Z := foldr Z.max 0 ids + 1.

(** [INSERT OR IGNORE INTO users (tg_id, name, is_premium, joined_at)
     VALUES (?,?,0,?)] *)
Definition insert_or_ignore_user (tg_id : Z) (name now : string)
    (d : database) : database :=
  match users d !! tg_id with
  | Some _ => d
  | None =>
      {| users := <[tg_id := {| u_name := name; u_is_premium := 0;
                               u_joined_at := now |}]> (users d);
         content := content d; quizzes := quizzes d;
         purchases := purchases d |}
  end.

(** [UPDATE users SET is_premium=1 WHERE tg_id=?] *)
Definition set_premium (tg_id : Z) (d : database) : database :=
  {| users := alter (λ r, {| u_name := u_name r; u_is_premium := 1;
                             u_joined_at := u_joined_at r |}) tg_id (users d);
     content := content d; quizzes := quizzes d; purchases := purchases d |}.

(** [INSERT INTO purchases (tg_id, txn_id, plan, created_at) VALUES (?,?,?,?)] *)
Definition insert_purchase (tg_id : Z) (txn plan_name now : string)
    (d : database) : database :=
  {| users := users d; content := content d; quizzes := quizzes d;
     purchases := purchases d ++
       [{| p_id := next_id (p_id <$> purchases d); p_tg_id := tg_id;
           p_txn_id := txn; p_plan := plan_name; p_created_at := now |}] |}.

(** [INSERT INTO content (class_num, category, subject, chapter, title,
     file_id, premium, created_at) VALUES (?,?,?,?,?,?,?,?)] *)
Definition insert_content (class_num category subject chapter title
    file_id : string) (prem : Z) (now : string) (d : database) : database :=
  {| users := users d;
     content := content d ++
       [{| c_id := next_id (c_id <$> content d); c_class_num := class_num;
           c_category := category; c_subject := subject;
           c_chapter := chapter; c_title := title; c_file_id := file_id;
           c_premium := prem; c_created_at := now |}];
     quizzes := quizzes d; purchases := purchases d |}.

(** [INSERT INTO quizzes (...) VALUES (?,?,?,?,?,?,?,?,?,?,?)] *)
Definition insert_quiz (class_num subject chapter question o1 o2 o3 o4 : string)
    (correct_index prem : Z) (now : string) (d : database) : database :=
  {| users := users d; content := content d;
     quizzes := quizzes d ++
       [{| q_id := next_id (q_id <$> quizzes d); q_class_num := class_num;
           q_subject := subject; q_chapter := chapter;
           q_question := question; q_option1 := o1; q_option2 := o2;
           q_option3 := o3; q_option4 := o4;
           q_correct_index := correct_index; q_premium := prem;
           q_created_at := now |}];
     purchases := purchases d |}.

(** [SELECT DISTINCT subject FROM content WHERE class_num=? AND category=?
     ORDER BY subject], keeping the non-empty ones. *)
Definition list_subjects_sync (d : database) (class_num category : string)
    : list string :=
  filter (λ s, Py.truthy s = true)
    (merge_sort String.le
       (remove_dups
          (c_subject <$>
             filter (λ r, c_class_num r = class_num ∧ c_category r = category)
               (content d)))).

(** [SELECT DISTINCT chapter FROM content WHERE class_num=? AND category=?
     AND subject=? ORDER BY chapter], keeping the non-empty ones. *)
Definition list_chapters_sync (d : database)
    (class_num category subject : string) : list string :=
  filter (λ s, Py.truthy s = true)
    (merge_sort String.le
       (remove_dups
          (c_chapter <$>
             filter (λ r, c_class_num r = class_num ∧ c_category r = category
                          ∧ c_subject r = subject)
               (content d)))).

(** [SELECT is_premium FROM users WHERE tg_id=?], then
    [bool(row["is_premium"]) if row else False] *)
Definition user_is_premium_sync (d : database) (tg_id : Z) : bool :=
  match users d !! tg_id with
  | Some row => negb (u_is_premium row =? 0)
  | None => false
  end.

(** [ORDER BY created_at DESC, id DESC]: [r1] may come before [r2]. TEXT
    values compare byte by byte, a proper prefix first. *)
Definition content_before (r1 r2 : content_row) : Prop :=
  (c_created_at r2 ≤ c_created_at r1)%string ∧
  (c_created_at r1 = c_created_at r2 → c_id r2 ≤ c_id r1).

#[global] Instance content_before_dec : RelDecision content_before.
Proof. intros r1 r2. unfold content_before. apply _. Defined.

(** [SELECT * FROM content WHERE class_num=? AND category=? AND subject=?
     AND chapter=? ORDER BY created_at DESC, id DESC] *)
Definition content_matches (class_num category subject chapter : string)
    (r : content_row) : Prop :=
  c_class_num r = class_num ∧ c_category r = category ∧
  c_subject r = subject ∧ c_chapter r = chapter.

#[global] Instance content_matches_dec a b c d r :
  Decision (content_matches a b c d r).
Proof. unfold content_matches. apply _. Defined.

Definition fetch_items_sync (d : database)
    (class_num category subject chapter : string) : list content_row :=
  merge_sort content_before
    (filter (content_matches class_num category subject chapter) (content d)).

(** ** The messaging client and the handler monad *)

Record button := { label : string; callback_data : string }.
Definition keyboard := list (list button).

(** One call on the messaging client (the message replied to, the chat or
    the callback query are those of the update being handled). *)
Inductive call :=
  | reply_text (text : string) (reply_markup : option keyboard)
  | reply_markdown (text : string)
  | reply_document (file_id caption : string)
  | send_action (action : string)
  | send_message (chat_id : Z) (text : string) (parse_mode : option string)
  | edit_message_text (text : string) (reply_markup : option keyboard)
  | answer (text : string) (show_alert : bool)
  | reply_poll (question : string) (options : list string)
      (correct_option_id : Z).

#[global] Instance button_eq_dec : EqDecision button.
Proof. solve_decision. Defined.
#[global] Instance call_eq_dec : EqDecision call.
Proof. solve_decision. Defined.

Inductive exn :=
  | AttributeError
  | ValueError
  | TelegramError (description : string).

(** [str(e)] for a caught exception *)
Definition exn_str (e : exn) : string :=
  match e with
  | AttributeError => "'NoneType' object has no attribute 'id'"
  | ValueError => "invalid literal for int() with base 10"
  | TelegramError description => description
  end.

Inductive outcome (A : Type) :=
  | Ok (a : A)
  | Raised (e : exn).
Arguments Ok {A} a.
Arguments Raised {A} e.

(** The state a handler runs in: the store, the number of clock readings
    taken so far, and the calls made on the messaging client, oldest first,
    each with whether it went through. *)
Record world := {
  store : database;
  ticks : nat;
  log : list (call * bool);
}.

Definition M (A : Type) : Type := world → outcome A * world.

Definition ret {A} (a : A) : M A := λ w, (Ok a, w).

Definition bind {A B} (m : M A) (k : A → M B) : M B :=
  λ w, match m w with
       | (Ok a, w') => k a w'
       | (Raised e, w') => (Raised e, w')
       end.

Definition raise {A} (e : exn) : M A := λ w, (Raised e, w).

(** [try: body except Exception as e: handler(e)] *)
Definition try_except {A} (body : M A) (handler : exn → M A) : M A :=
  λ w, match body w with
       | (Ok a, w') => (Ok a, w')
       | (Raised e, w') => handler e w'
       end.

(** [for x in xs: body(x)] *)
Fixpoint for_each {A} (xs : list A) (body : A → M unit) : M unit :=
  match xs with
  | [] => ret tt
  | x :: xs' => bind (body x) (λ _, for_each xs' body)
  end.

Declare Scope handler_scope.
Delimit Scope handler_scope with handler.
Notation "x <- m ;; k" := (bind m (λ x, k))
  (at level 100, m at next level, right associativity) : handler_scope.
Notation "m ;; k" := (bind m (λ _, k))
  (at level 100, right associativity) : handler_scope.

Definition get_db : M database := λ w, (Ok (store w), w).

(** One committed statement. *)
Definition execute (stmt : database → database) : M unit :=
  λ w, (Ok tt, {| store := stmt (store w); ticks := ticks w; log := log w |}).

Section Environment.

(** [clock n] is what the [n]-th call of [datetime.utcnow().isoformat()]
    returns; [net n] tells whether the [n]-th call on the messaging client
    raises, and with which description. *)
Variable clock : nat → string.
Variable net : nat → option string.

Definition read_clock : M string :=
  λ w, (Ok (clock (ticks w)),
        {| store := store w; ticks := S (ticks w); log := log w |}).

(** [await] of one call on the messaging client. *)
Definition await_call (c : call) : M unit :=
  λ w, match net (length (log w)) with
       | None =>
           (Ok tt, {| store := store w; ticks := ticks w;
                      log := log w ++ [(c, true)] |})
       | Some description =>
           (Raised (TelegramError description),
            {| store := store w; ticks := ticks w;
               log := log w ++ [(c, false)] |})
       end.

End Environment.

(** ** Updates *)

Record tg_user := { user_id : Z; full_name : string }.
Record document := { file_id : string }.

(** A message update as the command and document handlers receive it
    ([update.message] is present; its sender may be missing). *)
Record update := {
  effective_user : option tg_user;
  message_text : option string;
  message_caption : option string;
  message_document : option document;
}.

(** The line feed of ["\n"] and the double quote. *)
Definition nl : string := String "010"%char EmptyString.
Definition dquote : ascii := "034"%char.

(** ["\n".join(lines)] *)
Definition join_lines (lines : list string) : string := String.concat nl lines.

Definition in_list (x : string) (l : list string) : bool :=
  bool_decide (x ∈ l).

(** ** Handlers *)

Section Handlers.

Variable cfg : config.
Variable clock : nat → string.
Variable net : nat → option string.

Local Open Scope handler_scope.
Local Abbreviation await := (await_call net).
Local Abbreviation utcnow := (read_clock clock).

Definition ensure_user (upd : update) : M unit :=
  match effective_user upd with
  | None => ret tt
  | Some usr =>
      now <- utcnow ;;
      execute (insert_or_ignore_user (user_id usr) (full_name usr) now)
  end.

Definition user_is_premium (tg_id : Z) : M bool :=
  d <- get_db ;; ret (user_is_premium_sync d tg_id).

(** *** Menus *)

Definition send_menu (upd : update) : M unit :=
  let kb := (λ c, [{| label := "Class " +:+ c;
                      callback_data := "class|" +:+ c |}]) <$> CLASSES in
  let kb := kb ++ [[{| label := "Buy Premium ⭐"; callback_data := "buy" |}]] in
  await (reply_text "📚 Choose your class:" (Some kb)).

Definition send_categories (class_num : string) : M unit :=
  let rows := (λ cat, [{| label := cat;
                          callback_data := "cat|" +:+ class_num +:+ "|" +:+ cat |}])
                <$> CATEGORIES in
  let rows := rows ++ [[{| label := "⬅️ Back"; callback_data := "home" |}]] in
  await (edit_message_text ("Class " +:+ class_num +:+ " → Choose category:")
           (Some rows)).

Definition send_subjects (class_num category : string) : M unit :=
  d <- get_db ;;
  let subs := list_subjects_sync d class_num category in
  let subs := match subs with
              | [] => ["Maths"; "Physics"; "Chemistry"; "Biology";
                       "English"; "Hindi"; "SST"]
              | _ => subs
              end in
  let kb := (λ s, [{| label := s;
                      callback_data := "sub|" +:+ class_num +:+ "|"
                                         +:+ category +:+ "|" +:+ s |}])
              <$> subs in
  let kb := kb ++ [[{| label := "⬅️ Back";
                       callback_data := "class|" +:+ class_num |}]] in
  await (edit_message_text
           ("Class " +:+ class_num +:+ " → " +:+ category
              +:+ " → Choose subject:") (Some kb)).

Definition send_chapters (class_num category subject : string) : M unit :=
  d <- get_db ;;
  let chs := list_chapters_sync d class_num category subject in
  let chs := match chs with
             | [] => ["Chapter 1"; "Chapter 2"; "Chapter 3"]
             | _ => chs
             end in
  let kb := (λ ch, [{| label := ch;
                       callback_data := "chap|" +:+ class_num +:+ "|"
                                          +:+ category +:+ "|" +:+ subject
                                          +:+ "|" +:+ ch |}])
              <$> chs in
  let kb := kb ++ [[{| label := "⬅️ Back";
                       callback_data := "cat|" +:+ class_num +:+ "|"
                                          +:+ category |}]] in
  await (edit_message_text
           ("Class " +:+ class_num +:+ " → " +:+ category +:+ " → "
              +:+ subject +:+ " → Choose chapter:") (Some kb)).

Definition fetch_items (class_num category subject chapter : string)
    : M (list content_row) :=
  d <- get_db ;; ret (fetch_items_sync d class_num category subject chapter).

Definition item_line (premium_user : bool) (start : Z) (i : nat)
    (r : content_row) : string :=
  let lock := if premium_user || (c_premium r =? 0) then "🔓"
              else "🔒 Premium" in
  Py.str (Z.of_nat (S i) + start) +:+ ". " +:+ c_title r +:+ " " +:+ lock.

Definition page_data (kind class_num category subject chapter : string)
    (tail : list string) : string :=
  String.concat "|" ([kind; class_num; category; subject; chapter] ++ tail).

Definition send_items (tg_id : Z)
    (class_num category subject chapter : string) (page : Z) : M unit :=
  items <- fetch_items class_num category subject chapter ;;
  premium_user <- user_is_premium tg_id ;;
  let start := page * PAGE_SIZE in
  let page_items := Py.slice items start (start + PAGE_SIZE) in
  let text_lines :=
    ["Class " +:+ class_num +:+ " → " +:+ category +:+ " → " +:+ subject
       +:+ " → " +:+ chapter; ""] ++
    match page_items with
    | [] => ["No items yet. Check again later ✨"]
    | _ => imap (item_line premium_user start) page_items
    end in
  let text := join_lines text_lines in
  let nav :=
    (if 0 <? start
     then [{| label := "⬅️ Prev";
              callback_data := page_data "page" class_num category subject
                                 chapter [Py.str (page - 1)] |}]
     else []) ++
    (if start + PAGE_SIZE <? Z.of_nat (length items)
     then [{| label := "Next ➡️";
              callback_data := page_data "page" class_num category subject
                                 chapter [Py.str (page + 1)] |}]
     else []) in
  let buttons :=
    (match nav with [] => [] | _ => [nav] end) ++
    (match page_items with
     | [] => []
     | _ =>
         [[{| label := "📥 Send #1–#"
                         +:+ Py.str (Z.of_nat (length page_items));
              callback_data :=
                page_data "sendrange" class_num category subject chapter
                  [Py.str start; Py.str (Z.of_nat (length page_items))] |}]]
     end) ++
    [[{| label := "⬅️ Back";
         callback_data := page_data "chap" class_num category subject
                            chapter [] |}]] ++
    (if premium_user then []
     else [[{| label := "⭐ Buy Premium"; callback_data := "buy" |}]]) in
  await (edit_message_text text (Some buttons)).

Definition locked_notice (r : content_row) : string :=
  "🔒 " +:+ c_title r +:+ " — Premium only. Use /buy to unlock.".

Definition document_caption (class_num category subject chapter : string)
    (r : content_row) : string :=
  c_title r +:+ nl +:+ "(Class " +:+ class_num +:+ " • " +:+ category
    +:+ " • " +:+ subject +:+ " • " +:+ chapter +:+ ")".

(** The body of the delivery loop for one row. *)
Definition send_one (premium_user : bool)
    (class_num category subject chapter : string) (r : content_row)
    : M unit :=
  if negb (c_premium r =? 0) && negb premium_user
  then await (reply_text (locked_notice r) None)
  else
    try_except
      (await (send_action "upload_document") ;;
       await (reply_document (c_file_id r)
                (document_caption class_num category subject chapter r)))
      (λ e, await (reply_text ("Failed sending: " +:+ c_title r +:+ " — "
                                 +:+ exn_str e) None)).

Definition send_documents_by_range (tg_id : Z)
    (class_num category subject chapter : string) (start count : Z)
    : M unit :=
  items <- fetch_items class_num category subject chapter ;;
  premium_user <- user_is_premium tg_id ;;
  let subset := Py.slice items start (start + count) in
  for_each subset (send_one premium_user class_num category subject chapter).

(** *** Commands *)

Definition PRICE_TEXT : string :=
  join_lines
    ["⭐ *Premium Plans*";
     "• 1 Month: ₹99";
     "• 3 Months: ₹249";
     "• 12 Months: ₹699";
     "";
     "Premium me Test Series, Exclusive Handwritten Notes, Full Sample Papers, Fast Support unlock hoga.";
     "";
     "1) UPI se pay karein: `" +:+ PAYMENT_UPI_ID cfg +:+ "`";
     "2) Payment note me likhein: `" +:+ PAYMENT_NOTE cfg +:+ "`";
     "3) Yahan bhejein: /redeem <TXN_ID> (jaise /redeem 12345ABCD)";
     "4) Admin verify karega aur aapko Premium de diya jayega."].

Definition start (upd : update) : M unit :=
  ensure_user upd ;;
  await (reply_text ("Namaste! 👋 Main Study Bot hoon — Notes, PYQ, Handwritten, Sample Papers & Quizzes."
                       +:+ nl +:+ "Use /menu to begin.") None) ;;
  send_menu upd.

Definition menu_cmd (upd : update) : M unit :=
  ensure_user upd ;;
  send_menu upd.

Definition buy_cmd (upd : update) : M unit :=
  if razorpay_ready cfg then
    let kb := (λ kv, [{| label := plan_label (snd kv);
                         callback_data := "rzp|" +:+ fst kv |}]) <$> PLANS in
    let kb := kb ++ [[{| label := "I already paid • Redeem";
                         callback_data := "buy" |}]] in
    await (reply_text "Choose a Premium plan:" (Some kb))
  else
    await (reply_markdown PRICE_TEXT).

Definition REDEEM_USAGE : string := "Usage: /redeem <TXN_ID>".
Definition REDEEM_THANKS : string :=
  "Thanks! ✅ Aapka TXN ID receive ho gaya. Admin verify karte hi premium mil jayega.".

Definition redeem_notice (usr : tg_user) (txn : string) : string :=
  "Redeem request from " +:+ full_name usr +:+ " (#"
    +:+ Py.str (user_id usr) +:+ ")" +:+ nl +:+ "TXN: " +:+ txn.

Definition redeem_cmd (upd : update) : M unit :=
  ensure_user upd ;;
  let parts := Py.split_ws1 (Py.strip (default "" (message_text upd))) in
  match parts with
  | _ :: arg :: _ =>
      let txn := Py.strip arg in
      match effective_user upd with
      | None => raise AttributeError
      | Some usr =>
          now <- utcnow ;;
          execute (insert_purchase (user_id usr) txn "manual-upi" now) ;;
          await (reply_text REDEEM_THANKS None) ;;
          for_each (elements (ADMIN_IDS cfg))
            (λ aid, try_except
                      (await (send_message aid (redeem_notice usr txn) None))
                      (λ _, ret tt))
      end
  | _ => await (reply_text REDEEM_USAGE None)
  end.

Definition now_premium (target_id : Z) : string :=
  "User " +:+ Py.str target_id +:+ " is now PREMIUM ✅".
Definition CONGRATS : string :=
  "Congrats! ⭐ Aapka premium activate ho gaya.".

Definition make_premium_cmd (upd : update) : M unit :=
  match effective_user upd with
  | None => ret tt
  | Some usr =>
      if negb (is_admin cfg (user_id usr)) then ret tt
      else
        let parts := Py.split_ws (default "" (message_text upd)) in
        match parts with
        | _ :: arg :: _ =>
            match Py.int arg with
            | None => raise ValueError
            | Some target_id =>
                execute (set_premium target_id) ;;
                await (reply_text (now_premium target_id) None) ;;
                try_except
                  (await (send_message target_id CONGRATS None))
                  (λ _, ret tt)
            end
        | _ => await (reply_text "Usage: /make_premium <tg_id>" None)
        end
  end.

End Handlers.

(** *** Admin upload *)

Definition parse_caption (caption : string)
    : option (string * string * string * string * string * Z) :=
  match Py.strip <$> Py.split "|" caption with
  | [class_num; category; subject; chapter; title; premium] =>
      if negb (in_list class_num CLASSES) then None
      else if negb (in_list category CATEGORIES) then None
      else
        let prem := if in_list premium TRUE_WORDS then 1 else 0 in
        Some (class_num, category, subject, chapter, title, prem)
  | _ => None
  end.

Definition UPLOAD_FAILED : string :=
  join_lines
    ["Admin upload failed. Caption format:";
     "class|category|subject|chapter|title|premium";
     "Example:";
     "10|PYQ|Maths|Ch-4 Trig|2019 Set-1|0"].

(** *** Quizzes *)

(** [a, b = l] and [a, b, c, d = l]; [None] stands for the [ValueError] of a
    wrong number of values. *)
Definition unpack2 {A} (l : list A) : option (A * A) :=
  match l with [a; b] => Some (a, b) | _ => None end.
Definition unpack4 {A} (l : list A) : option (A * A * A * A) :=
  match l with [a; b; c; d] => Some (a, b, c, d) | _ => None end.

Record quiz_fields := {
  qf_class_num : string;
  qf_subject : string;
  qf_chapter : string;
  qf_q : string;
  qf_options : list string;
  qf_correct_index : Z;
  qf_premium : Z;
}.

(** The [try] block of [addquiz_cmd]; [None] stands for any exception raised
    in it (all are caught by its [except Exception]). *)
Definition addquiz_parse (text : string) : option quiz_fields :=
  '(_, rest) ← unpack2 (Py.split1 " " text);
  '(class_num, rest) ← unpack2 (Py.split1 " " rest);
  '(subject, rest) ← unpack2 (Py.split1 " " rest);
  '(chapter, rest) ← unpack2 (Py.split1 " " rest);
  '(q, opts, corr, prem) ← unpack4 (Py.strip <$> Py.split "|" rest);
  let options := Py.strip <$> Py.split ";" opts in
  if negb (length options =? 4)%nat then None
  else
    correct_index ← Py.int corr;
    let premium := if in_list prem TRUE_WORDS then 1 else 0 in
    Some {| qf_class_num := class_num; qf_subject := subject;
            qf_chapter := chapter; qf_q := q; qf_options := options;
            qf_correct_index := correct_index; qf_premium := premium |}.


Definition ADDQUIZ_FORMAT : string :=
  "Format: /addquiz <class> <subject> <chapter> <question> | opt1 ; opt2 ; opt3 ; opt4 | correct_index | premium"
    +:+ nl +:+ "Example:" +:+ nl +:+ "/addquiz 10 Maths Chapter-2 "
    +:+ String dquote "2+2?" +:+ String dquote " | 1 ; 2 ; 3 ; 4 | 4 | 0".

(** [options[i]] once the list is known to hold four strings. *)
Definition option_at (options : list string) (i : nat) : string :=
  default "" (options !! i).

Section AdminHandlers.

Variable cfg : config.
Variable clock : nat → string.
Variable net : nat → option string.

Local Open Scope handler_scope.
Local Abbreviation await := (await_call net).
Local Abbreviation utcnow := (read_clock clock).

Definition saved_text (class_num category subject chapter title : string)
    (prem : Z) : string :=
  "Saved ✅" +:+ nl +:+ "Class " +:+ class_num +:+ " • " +:+ category
    +:+ " • " +:+ subject +:+ " • " +:+ chapter +:+ nl
    +:+ "Title: " +:+ title +:+ nl +:+ "Premium: " +:+ Py.str prem.

Definition admin_doc_handler (upd : update) : M unit :=
  match effective_user upd with
  | None => ret tt
  | Some usr =>
      if negb (is_admin cfg (user_id usr)) then ret tt
      else
        let doc := message_document upd in
        let caption := default "" (message_caption upd) in
        match doc, parse_caption caption with
        | Some doc, Some (class_num, category, subject, chapter, title, prem) =>
            now <- utcnow ;;
            execute (insert_content class_num category subject chapter
                       title (file_id doc) prem now) ;;
            await (reply_text (saved_text class_num category subject
                                 chapter title prem) None)
        | _, _ => await (reply_text UPLOAD_FAILED None)
        end
  end.

Definition addquiz_cmd (upd : update) : M unit :=
  match effective_user upd with
  | None => ret tt
  | Some usr =>
      if negb (is_admin cfg (user_id usr)) then ret tt
      else
        let text := default "" (message_text upd) in
        match addquiz_parse text with
        | None => await (reply_text ADDQUIZ_FORMAT None)
        | Some f =>
            now <- utcnow ;;
            execute (insert_quiz (qf_class_num f) (qf_subject f)
                       (qf_chapter f) (Py.strip_char dquote (qf_q f))
                       (option_at (qf_options f) 0)
                       (option_at (qf_options f) 1)
                       (option_at (qf_options f) 2)
                       (option_at (qf_options f) 3)
                       (qf_correct_index f) (qf_premium f) now) ;;
            await (reply_text "Quiz added ✅" None)
        end
  end.

(** [ORDER BY RANDOM() LIMIT 1] over the matching quizzes: [dice] is the
    random draw. *)
Definition pick_quiz (d : database) (class_num subject : string)
    (chapter : option string) (dice : nat) : option quiz_row :=
  let any_chapter :=
    filter (λ r, q_class_num r = class_num ∧ q_subject r = subject)
      (quizzes d) in
  let rows :=
    match chapter with
    | Some ch =>
        if Py.truthy ch
        then filter (λ r, q_class_num r = class_num ∧ q_subject r = subject
                          ∧ q_chapter r = ch) (quizzes d)
        else any_chapter
    | None => any_chapter
    end in
  rows !! (dice `mod` length rows)%nat.

Definition send_quiz_for_subject (upd : update) (class_num subject : string)
    (chapter : option string) (dice : nat) : M unit :=
  match effective_user upd with
  | None => raise AttributeError
  | Some usr =>
      premium_user <- user_is_premium (user_id usr) ;;
      d <- get_db ;;
      match pick_quiz d class_num subject chapter dice with
      | None =>
          await (reply_text "No quiz available yet for this subject/chapter."
                   None)
      | Some row =>
          if negb (q_premium row =? 0) && negb premium_user
          then await (reply_text
                        "🔒 This quiz is premium-only. Use /buy to unlock."
                        None)
          else await (reply_poll (q_question row)
                        [q_option1 row; q_option2 row; q_option3 row;
                         q_option4 row]
                        (q_correct_index row - 1))
      end
  end.

Definition quiz_cmd (upd : update) (dice : nat) : M unit :=
  let parts := Py.split_ws (default "" (message_text upd)) in
  match parts with
  | _ :: class_num :: subject :: rest =>
      send_quiz_for_subject upd class_num subject (head rest) dice
  | _ => await (reply_text "Usage: /quiz <class> <subject> [chapter]" None)
  end.

(** *** Stats and utilities *)

Definition stats_cmd (upd : update) : M unit :=
  match effective_user upd with
  | None => ret tt
  | Some usr =>
      if negb (is_admin cfg (user_id usr)) then ret tt
      else
        d <- get_db ;;
        let users_c := Z.of_nat (size (users d)) in
        let prem := Z.of_nat (size (filter (λ kv, u_is_premium kv.2 = 1)
                                      (users d))) in
        let docs := Z.of_nat (length (content d)) in
        let qz := Z.of_nat (length (quizzes d)) in
        await (reply_text
                 ("Users: " +:+ Py.str users_c +:+ nl +:+ "Premium: "
                    +:+ Py.str prem +:+ nl +:+ "Docs: " +:+ Py.str docs
                    +:+ nl +:+ "Quizzes: " +:+ Py.str qz) None)
  end.

Definition myid_cmd (upd : update) : M unit :=
  match effective_user upd with
  | None => raise AttributeError
  | Some usr =>
      await (reply_text ("Your Telegram ID: " +:+ Py.str (user_id usr)) None)
  end.

Definition HELP_TEXT : string :=
  String.concat ""
    ["Welcome to Study Bot!"; nl; nl;
     "/menu – Open class & categories"; nl;
     "/buy – Premium info"; nl;
     "/redeem <TXN_ID> – Submit payment txn"; nl;
     "/quiz <class> <subject> [chapter] – Take a quiz"; nl;
     "/myid – Show your Telegram ID"; nl; nl;
     "Admin only:"; nl;
     "/make_premium <tg_id>"; nl;
     "/addquiz ... (see help)"; nl;
     "Send PDF with caption to upload: class|category|subject|chapter|title|premium";
     nl].

Definition help_cmd (upd : update) : M unit :=
  await (reply_text HELP_TEXT None).

(** *** Checkout buttons *)

(** What [buy_cb_router] goes on to do with a known plan (building the
    payment link from the payload and answering with it) is kept abstract:
    the source text ends inside the payload. *)
Variable create_payment_link : Z → string → plan → M unit.

Definition buy_cb_router (from_user_id : Z) (key : string) : M unit :=
  if negb (razorpay_ready cfg) then
    await (edit_message_text
             "Online checkout unavailable. Showing UPI instructions…" None) ;;
    await (send_message from_user_id (PRICE_TEXT cfg) (Some "Markdown"))
  else
    match PLANS_get key with
    | None => await (answer "Invalid plan" true)
    | Some plan => create_payment_link from_user_id key plan
    end.

End AdminHandlers.

(** ** Sessions *)

(** The operations of the system whose code is modelled above, each with the
    data of the update that triggers it. *)
Inductive operation :=
  | op_start (upd : update)
  | op_menu_cmd (upd : update)
  | op_buy_cmd (upd : update)
  | op_redeem_cmd (upd : update)
  | op_make_premium_cmd (upd : update)
  | op_admin_doc_handler (upd : update)
  | op_addquiz_cmd (upd : update)
  | op_send_categories (class_num : string)
  | op_send_subjects (class_num category : string)
  | op_send_chapters (class_num category subject : string)
  | op_send_items (tg_id : Z) (class_num category subject chapter : string)
      (page : Z)
  | op_send_documents_by_range (tg_id : Z)
      (class_num category subject chapter : string) (start count : Z)
  | op_quiz_cmd (upd : update) (dice : nat)
  | op_stats_cmd (upd : update)
  | op_myid_cmd (upd : update)
  | op_help_cmd (upd : update).

Definition run_operation (cfg : config) (clock : nat → string)
    (net : nat → option string) (op : operation) : M unit :=
  match op with
  | op_start upd => start clock net upd
  | op_menu_cmd upd => menu_cmd clock net upd
  | op_buy_cmd upd => buy_cmd cfg net upd
  | op_redeem_cmd upd => redeem_cmd cfg clock net upd
  | op_make_premium_cmd upd => make_premium_cmd cfg net upd
  | op_admin_doc_handler upd => admin_doc_handler cfg clock net upd
  | op_addquiz_cmd upd => addquiz_cmd cfg clock net upd
  | op_send_categories c => send_categories net c
  | op_send_subjects c cat => send_subjects net c cat
  | op_send_chapters c cat s => send_chapters net c cat s
  | op_send_items tg c cat s ch page => send_items net tg c cat s ch page
  | op_send_documents_by_range tg c cat s ch start count =>
      send_documents_by_range net tg c cat s ch start count
  | op_quiz_cmd upd dice => quiz_cmd net upd dice
  | op_stats_cmd upd => stats_cmd cfg net upd
  | op_myid_cmd upd => myid_cmd net upd
  | op_help_cmd upd => help_cmd net upd
  end.

(** The world after the operations have been handled in turn; a handler that
    raises leaves the world as it was when the exception escaped. *)
Fixpoint run_session (cfg : config) (clock : nat → string)
    (net : nat → option string) (ops : list operation) (w : world) : world :=
  match ops with
  | [] => w
  | op :: ops' =>
      run_session cfg clock net ops' (run_operation cfg clock net op w).2
  end.

(** Whether the [n]-th call on the messaging client goes through. *)
Definition delivered (net : nat → option string) (n : nat) : bool :=
  match net n with None => true | Some _ => false end.

(** A transport on which every call goes through. *)
Definition reliable : nat → option string := λ _, None.

(** The gate of the delivery loop: the row may be sent to this user. *)
Definition may_receive (d : database) (tg_id : Z) (r : content_row) : bool :=
  (c_premium r =? 0) || user_is_premium_sync d tg_id.

(** What the delivery loop sends for one row when every call goes through
    and the gate is applied: the upload action and the file, or the locked
    notice. *)
Definition gated_delivery (d : database) (tg_id : Z)
    (class_num category subject chapter : string) (r : content_row)
    : list (call * bool) :=
  if may_receive d tg_id r
  then [(send_action "upload_document", true);
        (reply_document (c_file_id r)
           (document_caption class_num category subject chapter r), true)]
  else [(reply_text (locked_notice r) None, true)].

(** The world with further calls logged. *)
Definition logged (w : world) (new : list (call * bool)) : world :=
  {| store := store w; ticks := ticks w; log := log w ++ new |}.



(** *** The specification's wording, where it is compared with the code *)




(** *** Relations between the worlds before and after a handler *)

(** A handler respects a relation on stores when the store it leaves, on
    normal return or on an exception, is related to the one it started in. *)
Definition respects (R : relation database) {A} (m : M A) : Prop :=
  ∀ w, R (store w) (store (m w).2).

(** Premium users stay premium. *)
Definition premium_kept (d d' : database) : Prop :=
  ∀ tg, user_is_premium_sync d tg = true → user_is_premium_sync d' tg = true.

(** Rows of [users] stay, and a row's flag is either what it was or 1. *)
Definition flag_raised (d d' : database) : Prop :=
  ∀ tg row, users d !! tg = Some row →
    ∃ row', users d' !! tg = Some row' ∧
            (u_is_premium row' = u_is_premium row ∨ u_is_premium row' = 1).

(** Nobody's premium status changes. *)
Definition premium_same (d d' : database) : Prop :=
  ∀ tg, user_is_premium_sync d' tg = user_is_premium_sync d tg.

(** A handler emits only calls satisfying [P] when everything it adds to the
    log does. *)
Definition emits (P : call * bool → Prop) {A} (m : M A) : Prop :=
  ∀ w, ∃ new, log (m w).2 = log w ++ new ∧ Forall P new.


(** ** Sample data *)

Module Sample.

Definition cfg : config :=
  {| ADMIN_IDS := {[ 1; 2 ]};
     PAYMENT_UPI_ID := "default@upi";
     PAYMENT_NOTE := "StudyBot Premium";
     RAZORPAY_AVAILABLE := false;
     RAZORPAY_KEY_ID := None;
     RAZORPAY_KEY_SECRET := None |}.

Definition cfg_online : config :=
  {| ADMIN_IDS := {[ 1; 2 ]};
     PAYMENT_UPI_ID := "default@upi";
     PAYMENT_NOTE := "StudyBot Premium";
     RAZORPAY_AVAILABLE := true;
     RAZORPAY_KEY_ID := Some "rzp_key";
     RAZORPAY_KEY_SECRET := Some "rzp_secret" |}.

Definition clock : nat → string := λ n, "2024-05-0" +:+ pretty n.

Definition admin : tg_user := {| user_id := 1; full_name := "Admin" |}.
Definition student : tg_user := {| user_id := 42; full_name := "Asha" |}.

Definition text_from (usr : tg_user) (text : string) : update :=
  {| effective_user := Some usr; message_text := Some text;
     message_caption := None; message_document := None |}.

Definition upload_from (usr : tg_user) (caption f : string) : update :=
  {| effective_user := Some usr; message_text := None;
     message_caption := Some caption;
     message_document := Some {| file_id := f |} |}.

Definition w0 : world := {| store := empty_db; ticks := 0; log := [] |}.

(** The student has opened the menu once, and the admin has uploaded one
    free and one premium item to the same chapter. *)
Definition w_catalogue : world :=
  run_session cfg clock reliable
    [op_menu_cmd (text_from student "/menu");
     op_admin_doc_handler
       (upload_from admin "10|PYQ|Maths|Ch-4 Trig|2019 Set-1|0" "file-1");
     op_admin_doc_handler
       (upload_from admin "10|PYQ|Maths|Ch-4 Trig|2020 Set-2|1" "file-2")]
    w0.


(** A transport that fails on its [k]-th call only. *)
Definition fails_at (k : nat) : nat → option string :=
  λ n, if (n =? k)%nat then Some "Timed out" else None.

End Sample.

(** * Properties *)

(** ** The store *)

Section StoreFacts.

Implicit Types (d : database) (tg target : Z).


Lemma premium_after_upsert d tg name now target :
  user_is_premium_sync (insert_or_ignore_user tg name now d) target
  = user_is_premium_sync d target.
Proof.
  unfold insert_or_ignore_user, user_is_premium_sync.
  destruct (users d !! tg) eqn:Htg; [done|]. simpl.
  destruct (decide (tg = target)) as [->|Hne].
  - by rewrite lookup_insert_eq, Htg.
  - by rewrite lookup_insert_ne.
Qed.




Lemma premium_after_set_premium d tg target :
  user_is_premium_sync d target = true →
  user_is_premium_sync (set_premium tg d) target = true.
Proof.
  unfold user_is_premium_sync, set_premium. simpl.
  rewrite lookup_alter. case_decide; subst; [|done].
  by destruct (users d !! target).
Qed.

Lemma premium_sync_absent d tg :
  users d !! tg = None → user_is_premium_sync d tg = false.
Proof. intros Hnone. unfold user_is_premium_sync. by rewrite Hnone. Qed.

End StoreFacts.

(** ** C9 *)

(** C9. A user id with no row in [users] is not premium: both the
    synchronous query and its async wrapper return [False], the wrapper
    without raising and without touching the world. *)
Theorem unknown_user_is_not_premium (w : world) (tg_id : Z) :
  users (store w) !! tg_id = None →
  user_is_premium_sync (store w) tg_id = false ∧
  user_is_premium tg_id w = (Ok false, w).
Proof.
  intros Hnone.
  assert (user_is_premium_sync (store w) tg_id = false) as Hsync
    by by apply premium_sync_absent.
  split; [done|].
  unfold user_is_premium, bind, get_db, ret. by rewrite Hsync.
Qed.

Lemma unknown_user_is_not_premium_witness :
  user_is_premium_sync (store Sample.w_catalogue) 7 = false ∧
  user_is_premium 7 Sample.w_catalogue = (Ok false, Sample.w_catalogue).
Proof.
  apply (unknown_user_is_not_premium Sample.w_catalogue 7).
  vm_compute. reflexivity.
Defined.

(** ** Admin activation *)

Section Activation.

Variable cfg : config.
Variable net : nat → option string.


End Activation.






(** ** What handlers do to the store *)


Section Respects.

Context (R : relation database) `{!PreOrder R}.

Lemma respects_ret {A} (a : A) : respects R (ret a).
Proof. intros w. simpl. reflexivity. Qed.

Lemma respects_raise {A} e : respects R (raise (A:=A) e).
Proof. intros w. simpl. reflexivity. Qed.

Lemma respects_get_db : respects R get_db.
Proof. intros w. simpl. reflexivity. Qed.

Lemma respects_read_clock clock : respects R (read_clock clock).
Proof. intros w. simpl. reflexivity. Qed.

Lemma respects_await_call net c : respects R (await_call net c).
Proof.
  intros w. unfold await_call.
  destruct (net (length (log w))); simpl; reflexivity.
Qed.

Lemma respects_execute stmt :
  (∀ d, R d (stmt d)) → respects R (execute stmt).
Proof. intros Hstmt w. simpl. apply Hstmt. Qed.

Lemma respects_bind {A B} (m : M A) (k : A → M B) :
  respects R m → (∀ a, respects R (k a)) → respects R (bind m k).
Proof.
  intros Hm Hk w. unfold bind. specialize (Hm w).
  destruct (m w) as [[a|e] w'] eqn:Hrun; simpl in *; [|done].
  etrans; [exact Hm|]. apply Hk.
Qed.

Lemma respects_try_except {A} (body : M A) (handler : exn → M A) :
  respects R body → (∀ e, respects R (handler e)) →
  respects R (try_except body handler).
Proof.
  intros Hbody Hhandler w. unfold try_except. specialize (Hbody w).
  destruct (body w) as [[a|e] w'] eqn:Hrun; simpl in *; [done|].
  etrans; [exact Hbody|]. apply Hhandler.
Qed.

Lemma respects_for_each {A} (xs : list A) (body : A → M unit) :
  (∀ x, respects R (body x)) → respects R (for_each xs body).
Proof.
  intros Hbody. induction xs as [|x xs IH]; simpl.
  - apply respects_ret.
  - apply respects_bind; [apply Hbody|]. intros _. exact IH.
Qed.

End Respects.

Create HintDb handlers discriminated.
#[export] Hint Resolve respects_ret respects_raise respects_get_db
  respects_read_clock respects_await_call respects_bind respects_try_except
  respects_for_each respects_execute : handlers.


#[export] Instance premium_kept_preorder : PreOrder premium_kept.
Proof. split; [by intros d tg|]. intros d1 d2 d3 H12 H23 tg ?. eauto. Qed.

#[export] Instance premium_same_preorder : PreOrder premium_same.
Proof.
  split; [by intros d tg|].
  intros d1 d2 d3 H12 H23 tg. by rewrite H23, H12.
Qed.

Lemma premium_same_kept d d' : premium_same d d' → premium_kept d d'.
Proof. intros Hsame tg. by rewrite Hsame. Qed.

Lemma upsert_premium_same tg name now d :
  premium_same d (insert_or_ignore_user tg name now d).
Proof. intros t. apply premium_after_upsert. Qed.

Lemma insert_purchase_premium_same tg txn plan_name now d :
  premium_same d (insert_purchase tg txn plan_name now d).
Proof. by intros t. Qed.

Lemma insert_content_premium_same c cat s ch title f prem now d :
  premium_same d (insert_content c cat s ch title f prem now d).
Proof. by intros t. Qed.

Lemma insert_quiz_premium_same c s ch q o1 o2 o3 o4 ci prem now d :
  premium_same d (insert_quiz c s ch q o1 o2 o3 o4 ci prem now d).
Proof. by intros t. Qed.

Lemma set_premium_premium_kept target d :
  premium_kept d (set_premium target d).
Proof. intros t. apply premium_after_set_premium. Qed.

#[export] Hint Resolve upsert_premium_same insert_purchase_premium_same
  insert_content_premium_same insert_quiz_premium_same
  set_premium_premium_kept premium_same_kept : handlers.

(** Unfolds a handler down to the monad's operations and settles the
    relation operation by operation. *)
Ltac respects_by_cases :=
  repeat first
    [ progress intros
    | apply respects_bind
    | apply respects_try_except
    | apply respects_for_each
    | apply respects_execute
    | apply respects_ret
    | apply respects_raise
    | apply respects_get_db
    | apply respects_read_clock
    | apply respects_await_call
    | solve [eauto with handlers typeclass_instances]
    | case_match ].

#[export] Instance flag_raised_preorder : PreOrder flag_raised.
Proof.
  split.
  - intros d tg row Hrow. exists row. auto.
  - intros d1 d2 d3 H12 H23 tg row Hrow.
    destruct (H12 tg row Hrow) as (row2 & Hrow2 & Hflag2).
    destruct (H23 tg row2 Hrow2) as (row3 & Hrow3 & Hflag3).
    exists row3. split; [done|]. destruct Hflag3; [|by right]. congruence.
Qed.

Lemma users_same_flag_raised d d' : users d' = users d → flag_raised d d'.
Proof. intros Husers tg row Hrow. exists row. rewrite Husers. auto. Qed.

Lemma upsert_flag_raised tg name now d :
  flag_raised d (insert_or_ignore_user tg name now d).
Proof.
  unfold insert_or_ignore_user.
  destruct (users d !! tg) eqn:Htg; [reflexivity|].
  intros t row Hrow. exists row. simpl. split; [|by left].
  rewrite lookup_insert_ne; [done|]. congruence.
Qed.

Lemma set_premium_flag_raised target d : flag_raised d (set_premium target d).
Proof.
  intros t row Hrow. unfold set_premium. simpl. rewrite lookup_alter.
  case_decide; subst; rewrite Hrow; simpl; eexists; split; eauto.
Qed.

(** The handlers write to the store through five statements only: a
    relation that each statement respects is respected by every handler. *)
Section EveryHandler.

Context (R : relation database) `{!PreOrder R}.

Hypothesis R_upsert :
  ∀ tg name now d, R d (insert_or_ignore_user tg name now d).
Hypothesis R_set_premium : ∀ target d, R d (set_premium target d).
Hypothesis R_purchase :
  ∀ tg txn plan_name now d, R d (insert_purchase tg txn plan_name now d).
Hypothesis R_content :
  ∀ c cat s ch title f prem now d,
    R d (insert_content c cat s ch title f prem now d).
Hypothesis R_quiz :
  ∀ c s ch q o1 o2 o3 o4 ci prem now d,
    R d (insert_quiz c s ch q o1 o2 o3 o4 ci prem now d).

Variable cfg : config.
Variable clock : nat → string.
Variable net : nat → option string.

Lemma ensure_user_respects upd : respects R (ensure_user clock upd).
Proof. unfold ensure_user. respects_by_cases. Qed.

Lemma send_menu_respects upd : respects R (send_menu net upd).
Proof. unfold send_menu. respects_by_cases. Qed.

Lemma start_respects upd : respects R (start clock net upd).
Proof.
  unfold start. respects_by_cases;
    auto using ensure_user_respects, send_menu_respects.
Qed.

Lemma menu_cmd_respects upd : respects R (menu_cmd clock net upd).
Proof.
  unfold menu_cmd. respects_by_cases;
    auto using ensure_user_respects, send_menu_respects.
Qed.

Lemma buy_cmd_respects upd : respects R (buy_cmd cfg net upd).
Proof. unfold buy_cmd. respects_by_cases. Qed.

Lemma redeem_cmd_respects upd : respects R (redeem_cmd cfg clock net upd).
Proof.
  unfold redeem_cmd.
  apply respects_bind; [apply _|apply ensure_user_respects|].
  respects_by_cases.
Qed.

Lemma make_premium_cmd_respects upd : respects R (make_premium_cmd cfg net upd).
Proof. unfold make_premium_cmd. respects_by_cases. Qed.

Lemma admin_doc_handler_respects upd :
  respects R (admin_doc_handler cfg clock net upd).
Proof. unfold admin_doc_handler. respects_by_cases. Qed.

Lemma addquiz_cmd_respects upd : respects R (addquiz_cmd cfg clock net upd).
Proof. unfold addquiz_cmd. respects_by_cases. Qed.

Lemma send_categories_respects c : respects R (send_categories net c).
Proof. unfold send_categories. respects_by_cases. Qed.

Lemma send_subjects_respects c cat : respects R (send_subjects net c cat).
Proof. unfold send_subjects. respects_by_cases. Qed.

Lemma send_chapters_respects c cat s : respects R (send_chapters net c cat s).
Proof. unfold send_chapters. respects_by_cases. Qed.

Lemma send_items_respects tg c cat s ch page :
  respects R (send_items net tg c cat s ch page).
Proof. unfold send_items, fetch_items, user_is_premium. respects_by_cases. Qed.

Lemma send_documents_by_range_respects tg c cat s ch start count :
  respects R (send_documents_by_range net tg c cat s ch start count).
Proof.
  unfold send_documents_by_range, fetch_items, user_is_premium, send_one.
  respects_by_cases.
Qed.

Lemma quiz_cmd_respects upd dice : respects R (quiz_cmd net upd dice).
Proof.
  unfold quiz_cmd, send_quiz_for_subject, user_is_premium. respects_by_cases.
Qed.

Lemma stats_cmd_respects upd : respects R (stats_cmd cfg net upd).
Proof. unfold stats_cmd. respects_by_cases. Qed.

Lemma myid_cmd_respects upd : respects R (myid_cmd net upd).
Proof. unfold myid_cmd. respects_by_cases. Qed.

Lemma help_cmd_respects upd : respects R (help_cmd net upd).
Proof. unfold help_cmd. respects_by_cases. Qed.

Lemma run_operation_respects op :
  respects R (run_operation cfg clock net op).
Proof.
  destruct op; simpl;
    auto using start_respects, menu_cmd_respects, buy_cmd_respects,
      redeem_cmd_respects, make_premium_cmd_respects,
      admin_doc_handler_respects, addquiz_cmd_respects,
      send_categories_respects, send_subjects_respects,
      send_chapters_respects, send_items_respects,
      send_documents_by_range_respects, quiz_cmd_respects,
      stats_cmd_respects, myid_cmd_respects, help_cmd_respects.
Qed.

Lemma run_session_respects ops w :
  R (store w) (store (run_session cfg clock net ops w)).
Proof.
  revert w. induction ops as [|op ops IH]; intros w; simpl; [reflexivity|].
  etrans; [apply (run_operation_respects op w)|apply IH].
Qed.

End EveryHandler.


(** C2. Premium status is monotone. Whatever operations are handled, in
    whatever order, with whatever transport failures, a user who is premium
    before them is premium after them; a [users] row is never removed, and
    the flag stored in it is afterwards either what it was or 1: the flag
    only ever goes from false to true. *)
Theorem premium_is_monotone
    (cfg : config) (clock : nat → string) (net : nat → option string)
    (ops : list operation) (w : world) (tg_id : Z) :
  let w' := run_session cfg clock net ops w in
  (user_is_premium_sync (store w) tg_id = true →
   user_is_premium_sync (store w') tg_id = true) ∧
  (∀ row, users (store w) !! tg_id = Some row →
     ∃ row', users (store w') !! tg_id = Some row' ∧
             (u_is_premium row' = u_is_premium row ∨ u_is_premium row' = 1)).
Proof.
  simpl. split.
  - apply (run_session_respects premium_kept); auto with handlers.
  - apply (run_session_respects flag_raised);
      auto using upsert_flag_raised, set_premium_flag_raised,
        users_same_flag_raised.
Qed.

(** ** Delivery *)


Section Emits.

Context (P : call * bool → Prop).

Lemma emits_ret {A} (a : A) : emits P (ret a).
Proof. intros w. exists []. simpl. by rewrite app_nil_r. Qed.

Lemma emits_get_db : emits P get_db.
Proof. intros w. exists []. simpl. by rewrite app_nil_r. Qed.

Lemma emits_await_call net c :
  P (c, true) → P (c, false) → emits P (await_call net c).
Proof.
  intros Hok Hfail w. unfold await_call.
  destruct (net (length (log w))); simpl; eexists; split; eauto.
Qed.

Lemma emits_bind {A B} (m : M A) (k : A → M B) :
  emits P m → (∀ a, emits P (k a)) → emits P (bind m k).
Proof.
  intros Hm Hk w. unfold bind. destruct (Hm w) as (new & Hlog & Hnew).
  destruct (m w) as [[a|e] w'] eqn:Hrun; simpl in *; [|eauto].
  destruct (Hk a w') as (new' & Hlog' & Hnew').
  exists (new ++ new'). rewrite Hlog', Hlog, app_assoc.
  split; [done|]. by apply Forall_app.
Qed.

Lemma emits_try_except {A} (body : M A) (handler : exn → M A) :
  emits P body → (∀ e, emits P (handler e)) →
  emits P (try_except body handler).
Proof.
  intros Hbody Hhandler w. unfold try_except.
  destruct (Hbody w) as (new & Hlog & Hnew).
  destruct (body w) as [[a|e] w'] eqn:Hrun; simpl in *; [eauto|].
  destruct (Hhandler e w') as (new' & Hlog' & Hnew').
  exists (new ++ new'). rewrite Hlog', Hlog, app_assoc.
  split; [done|]. by apply Forall_app.
Qed.

Lemma emits_for_each {A} (xs : list A) (body : A → M unit) :
  (∀ x, x ∈ xs → emits P (body x)) → emits P (for_each xs body).
Proof.
  induction xs as [|x xs IH]; intros Hbody; simpl.
  - apply emits_ret.
  - apply emits_bind; [apply Hbody; left|].
    intros _. apply IH. intros y Hy. apply Hbody. by right.
Qed.

End Emits.

Section Delivery.

Variable net : nat → option string.

Lemma send_one_emits premium_user c cat s ch r :
  emits (λ cb, ∀ f cap, cb.1 = reply_document f cap →
               (c_premium r =? 0) || premium_user = true ∧
               f = c_file_id r ∧ cap = document_caption c cat s ch r)
    (send_one net premium_user c cat s ch r).
Proof.
  unfold send_one.
  destruct (negb (c_premium r =? 0) && negb premium_user) eqn:Hgate.
  - apply emits_await_call; by intros f cap.
  - assert ((c_premium r =? 0) || premium_user = true) as Hmay.
    { by destruct (c_premium r =? 0), premium_user. }
    apply emits_try_except; [apply emits_bind|]; intros;
      apply emits_await_call; intros f cap; simpl; try done;
      by intros [= <- <-].
Qed.

Lemma send_one_reliable premium_user c cat s ch r w :
  (∀ n, net n = None) →
  send_one net premium_user c cat s ch r w =
    (Ok tt,
     logged w
       (if (c_premium r =? 0) || premium_user
        then [(send_action "upload_document", true);
              (reply_document (c_file_id r)
                 (document_caption c cat s ch r), true)]
        else [(reply_text (locked_notice r) None, true)])).
Proof.
  intros Hnet. unfold send_one, logged.
  destruct (c_premium r =? 0), premium_user; simpl;
    unfold try_except, bind, await_call; simpl;
    rewrite ?Hnet; simpl; rewrite ?Hnet; simpl;
    by rewrite <- ?app_assoc.
Qed.

Lemma for_each_reliable {A} (xs : list A) (body : A → M unit)
    (sent : A → list (call * bool)) w :
  (∀ x w', body x w' = (Ok tt, logged w' (sent x))) →
  for_each xs body w = (Ok tt, logged w (concat (sent <$> xs))).
Proof.
  intros Hbody. revert w.
  induction xs as [|x xs IH]; intros w; simpl.
  - unfold ret, logged. rewrite app_nil_r. by destruct w.
  - unfold bind. rewrite Hbody, IH. unfold logged. simpl.
    by rewrite app_assoc.
Qed.

Lemma send_documents_by_range_eq tg c cat s ch start count w :
  send_documents_by_range net tg c cat s ch start count w =
    for_each
      (Py.slice (fetch_items_sync (store w) c cat s ch) start (start + count))
      (send_one net (user_is_premium_sync (store w) tg) c cat s ch) w.
Proof. reflexivity. Qed.

End Delivery.

Lemma gated_delivery_iff d tg_id c cat s ch r :
  let sent := gated_delivery d tg_id c cat s ch r in
  ((reply_document (c_file_id r) (document_caption c cat s ch r), true)
     ∈ sent ↔
   c_premium r = 0 ∨ user_is_premium_sync d tg_id = true) ∧
  ((reply_text (locked_notice r) None, true) ∈ sent ↔
   ¬ (c_premium r = 0 ∨ user_is_premium_sync d tg_id = true)).
Proof.
  simpl. unfold gated_delivery, may_receive.
  destruct (Z.eqb_spec (c_premium r) 0) as [Hfree|Hpaid];
    destruct (user_is_premium_sync d tg_id); simpl;
    rewrite !elem_of_cons, !elem_of_nil;
    intuition (discriminate || congruence).
Qed.

(** C3. Delivery gating. Bulk delivery reads the user's premium status from
    the store it is run in (the one at delivery time), never changes the
    store, and
    - whatever the transport does, a file goes out only for a row of the
      requested range that is not premium or whose reader is premium;
    - when every call goes through, each row of the range gets, in order,
      its file if [premium = 0] or the user is premium, and the locked
      notice instead otherwise. *)
Theorem delivery_is_gated
    (net : nat → option string) (tg_id : Z)
    (class_num category subject chapter : string) (start count : Z)
    (w : world) :
  let d := store w in
  let subset :=
    Py.slice (fetch_items_sync d class_num category subject chapter)
      start (start + count) in
  let out := send_documents_by_range net tg_id class_num category subject
               chapter start count w in
  store out.2 = store w ∧
  ∃ new,
    log out.2 = log w ++ new ∧
    (∀ f cap ok, (reply_document f cap, ok) ∈ new →
       ∃ r, r ∈ subset ∧ may_receive d tg_id r = true ∧
            f = c_file_id r ∧
            cap = document_caption class_num category subject chapter r) ∧
    ((∀ n, net n = None) →
       out.1 = Ok tt ∧
       new = concat (gated_delivery d tg_id class_num category subject
                       chapter <$> subset) ∧
       ∀ r, r ∈ subset →
         let sent := gated_delivery d tg_id class_num category subject
                       chapter r in
         ((reply_document (c_file_id r)
             (document_caption class_num category subject chapter r), true)
            ∈ sent ↔
          c_premium r = 0 ∨ user_is_premium_sync d tg_id = true) ∧
         ((reply_text (locked_notice r) None, true) ∈ sent ↔
          ¬ (c_premium r = 0 ∨ user_is_premium_sync d tg_id = true))).
Proof.
  simpl. rewrite send_documents_by_range_eq.
  set (d := store w).
  set (subset := Py.slice _ _ _).
  set (body := send_one net (user_is_premium_sync d tg_id) class_num category
                 subject chapter).
  split.
  { assert (respects eq (for_each subset body)) as Hframe.
    { apply respects_for_each; [apply _|]. intros r. unfold body, send_one.
      respects_by_cases. }
    symmetry. apply (Hframe w). }
  assert (emits (λ cb, ∀ f cap, cb.1 = reply_document f cap →
                   ∃ r, r ∈ subset ∧ may_receive d tg_id r = true ∧
                        f = c_file_id r ∧
                        cap = document_caption class_num category subject
                                chapter r)
            (for_each subset body)) as Hemits.
  { apply emits_for_each. intros r Hr w'.
    destruct (send_one_emits net (user_is_premium_sync d tg_id) class_num
                category subject chapter r w') as (new & Hlog & Hnew).
    exists new. split; [done|].
    eapply Forall_impl; [exact Hnew|]. intros cb Hcb f cap Hdoc.
    destruct (Hcb f cap Hdoc) as (? & ? & ?). by exists r. }
  destruct (Hemits w) as (new & Hlog & Hnew).
  exists new. split; [done|]. split.
  - intros f cap ok Hin. rewrite Forall_forall in Hnew.
    by apply (Hnew _ Hin f cap).
  - intros Hnet.
    assert (for_each subset body w =
              (Ok tt, logged w (concat (gated_delivery d tg_id class_num
                                          category subject chapter
                                          <$> subset)))) as Hrun.
    { apply for_each_reliable. intros r w'. unfold body.
      by rewrite send_one_reliable. }
    rewrite Hrun in Hlog |- *. split; [done|]. split.
    { simpl in Hlog. by apply app_inv_head in Hlog. }
    intros r _. apply gated_delivery_iff.
Qed.

Lemma delivery_is_gated_witness :
  (send_documents_by_range reliable 42 "10" "PYQ" "Maths" "Ch-4 Trig" 0 2
     Sample.w_catalogue).1 = Ok tt ∧
  ∃ new,
    log (send_documents_by_range reliable 42 "10" "PYQ" "Maths" "Ch-4 Trig"
           0 2 Sample.w_catalogue).2 = log Sample.w_catalogue ++ new ∧
    new = [(reply_text "🔒 2020 Set-2 — Premium only. Use /buy to unlock."
              None, true);
           (send_action "upload_document", true);
           (reply_document "file-1"
              (document_caption "10" "PYQ" "Maths" "Ch-4 Trig"
                 {| c_id := 1; c_class_num := "10"; c_category := "PYQ";
                    c_subject := "Maths"; c_chapter := "Ch-4 Trig";
                    c_title := "2019 Set-1"; c_file_id := "file-1";
                    c_premium := 0; c_created_at := "2024-05-01" |}),
            true)].
Proof.
  destruct (delivery_is_gated reliable 42 "10" "PYQ" "Maths" "Ch-4 Trig" 0 2
              Sample.w_catalogue) as (_ & new & Hlog & _ & Hreliable).
  destruct (Hreliable (λ n, eq_refl)) as (Hok & Hnew & _).
  split; [exact Hok|]. exists new. split; [exact Hlog|].
  rewrite Hnew. vm_compute. reflexivity.
Defined.

(** The status is read when the files are asked for: a page rendered while
    the reader was not premium shows the premium item locked, and after the
    admin activates the reader the same range delivers both files. *)
Example entitlement_change_between_render_and_click :
  let rendered :=
    (send_items reliable 42 "10" "PYQ" "Maths" "Ch-4 Trig" 0
       Sample.w_catalogue).2 in
  let activated :=
    (make_premium_cmd Sample.cfg reliable
       (Sample.text_from Sample.admin "/make_premium 42") rendered).2 in
  let clicked :=
    (send_documents_by_range reliable 42 "10" "PYQ" "Maths" "Ch-4 Trig" 0 2
       activated).2 in
  fst <$> drop (length (log activated)) (log clicked) =
    [send_action "upload_document";
     reply_document "file-2"
       ("2020 Set-2" +:+ nl +:+ "(Class 10 • PYQ • Maths • Ch-4 Trig)");
     send_action "upload_document";
     reply_document "file-1"
       ("2019 Set-1" +:+ nl +:+ "(Class 10 • PYQ • Maths • Ch-4 Trig)")].
Proof. vm_compute. reflexivity. Qed.

(** ** Listing order and pages *)

#[export] Instance content_before_total : Total content_before.
Proof.
  intros r1 r2. unfold content_before.
  destruct (total String.le (c_created_at r1) (c_created_at r2)) as [H12|H21].
  - destruct (decide (c_created_at r1 = c_created_at r2)) as [Heq|Hne].
    + destruct (Z.le_ge_cases (c_id r1) (c_id r2)).
      * right. split; [done|]. done.
      * left. split; [by rewrite Heq|]. intros _. lia.
    + right. split; [done|]. intros Heq. by destruct Hne.
  - destruct (decide (c_created_at r1 = c_created_at r2)) as [Heq|Hne].
    + destruct (Z.le_ge_cases (c_id r1) (c_id r2)).
      * right. split; [by rewrite Heq|]. done.
      * left. split; [done|]. intros _. lia.
    + left. split; [done|]. done.
Qed.

#[export] Instance content_before_trans : Transitive content_before.
Proof.
  intros r1 r2 r3 [Ht12 Hid12] [Ht23 Hid23]. split.
  - by etrans.
  - intros Heq13.
    assert (c_created_at r1 = c_created_at r2) as Heq12.
    { apply (anti_symm String.le); [by rewrite Heq13|done]. }
    assert (c_created_at r2 = c_created_at r3) as Heq23 by congruence.
    specialize (Hid12 Heq12). specialize (Hid23 Heq23). lia.
Qed.




Lemma slice_length {A} (l : list A) (lo hi : Z) :
  0 ≤ lo → 0 ≤ hi →
  Z.of_nat (length (Py.slice l lo hi))
  = Z.max 0 (Z.min hi (Z.of_nat (length l)) - lo).
Proof.
  intros Hlo Hhi. unfold Py.slice, Py.clamp.
  destruct (Z.ltb_spec lo 0); [lia|]. destruct (Z.ltb_spec hi 0); [lia|].
  rewrite length_take, length_drop. lia.
Qed.

Lemma await_call_world net c w :
  (await_call net c w).2 = logged w [(c, delivered net (length (log w)))].
Proof.
  unfold await_call, delivered, logged.
  by destruct (net (length (log w))).
Qed.





(** ** Admin upload *)






(** ** Manual redemption *)



Section Redemption.

Variable cfg : config.
Variable clock : nat → string.
Variable net : nat → option string.





End Redemption.



(** ** Quiz ingestion *)





Section QuizIngestion.

Variable cfg : config.
Variable clock : nat → string.
Variable net : nat → option string.



End QuizIngestion.



(** ** Checkout *)

Lemma PLANS_get_unknown key : key ∉ PLANS.*1 → PLANS_get key = None.
Proof. intros Hkey. unfold PLANS_get. by apply not_elem_of_list_to_map_1. Qed.

Lemma buy_cb_router_offline cfg net create_payment_link from_user_id key w :
  razorpay_ready cfg = false →
  buy_cb_router cfg net create_payment_link from_user_id key w =
    let unavailable :=
      edit_message_text
        "Online checkout unavailable. Showing UPI instructions…" None in
    match net (length (log w)) with
    | Some description =>
        (Raised (TelegramError description), logged w [(unavailable, false)])
    | None =>
        (match net (S (length (log w))) with
         | Some description => Raised (TelegramError description)
         | None => Ok tt
         end,
         logged w
           [(unavailable, true);
            (send_message from_user_id (PRICE_TEXT cfg) (Some "Markdown"),
             delivered net (S (length (log w))))])
    end.
Proof.
  intros Hoff. unfold buy_cb_router. rewrite Hoff. simpl.
  unfold bind, await_call, delivered, logged. simpl.
  destruct (net (length (log w))) as [description|]; [done|]. simpl.
  rewrite length_app, Nat.add_1_r. simpl.
  destruct (net (S (length (log w)))); by rewrite <- app_assoc.
Qed.

(** C8. Payment-intent degradation. When the gateway integration is not
    configured (library or credentials missing), [/buy] answers with the
    static manual-payment instructions and the plan buttons' handler
    announces that checkout is unavailable and then sends the same
    instructions; both end normally when their calls go through. When it is
    configured, a plan key outside the plan table is answered with the
    "Invalid plan" alert and nothing else happens: the store is untouched
    and the code that builds the payment link is not run, whatever it is. *)
Theorem payment_degradation
    (cfg : config) (net : nat → option string)
    (create_payment_link : Z → string → plan → M unit)
    (upd : update) (from_user_id : Z) (key : string) (w : world) :
  let n := length (log w) in
  (razorpay_ready cfg = false →
     (buy_cmd cfg net upd w).2 =
       logged w [(reply_markdown (PRICE_TEXT cfg), delivered net n)] ∧
     (delivered net n = true → (buy_cmd cfg net upd w).1 = Ok tt) ∧
     let out := buy_cb_router cfg net create_payment_link from_user_id key w in
     store out.2 = store w ∧
     ∃ tail,
       log out.2 = log w ++
         (edit_message_text
            "Online checkout unavailable. Showing UPI instructions…" None,
          delivered net n) :: tail ∧
       (delivered net n = true →
        tail = [(send_message from_user_id (PRICE_TEXT cfg) (Some "Markdown"),
                 delivered net (S n))] ∧
        (delivered net (S n) = true → out.1 = Ok tt))) ∧
  (razorpay_ready cfg = true → key ∉ PLANS.*1 →
     let out := buy_cb_router cfg net create_payment_link from_user_id key w in
     out.2 = logged w [(answer "Invalid plan" true, delivered net n)] ∧
     (delivered net n = true → out.1 = Ok tt)).
Proof.
  simpl. split.
  - intros Hoff.
    rewrite (buy_cb_router_offline cfg net create_payment_link from_user_id
               key w Hoff).
    unfold buy_cmd. rewrite Hoff. rewrite await_call_world.
    split; [done|]. split.
    { unfold await_call, delivered.
      by destruct (net (length (log w))). }
    simpl. unfold delivered.
    destruct (net (length (log w))) as [description|]; simpl.
    + split; [done|]. exists []. split; [done|]. done.
    + split; [done|]. eexists. split; [done|]. intros _. split; [done|].
      by destruct (net (S (length (log w)))).
  - intros Hon Hkey. unfold buy_cb_router.
    rewrite Hon, (PLANS_get_unknown key Hkey). simpl.
    rewrite await_call_world. split; [done|].
    unfold await_call, delivered.
    by destruct (net (length (log w))).
Qed.

Lemma payment_degradation_witness :
  (buy_cmd Sample.cfg reliable (Sample.text_from Sample.student "/buy")
     Sample.w0).2
  = logged Sample.w0 [(reply_markdown (PRICE_TEXT Sample.cfg), true)] ∧
  (buy_cb_router Sample.cfg_online reliable (λ _ _ _, raise ValueError) 42
     "6m" Sample.w0).2
  = logged Sample.w0 [(answer "Invalid plan" true, true)].
Proof.
  destruct (payment_degradation Sample.cfg reliable (λ _ _ _, raise ValueError)
              (Sample.text_from Sample.student "/buy") 42 "6m" Sample.w0)
    as [Hoff _].
  destruct (payment_degradation Sample.cfg_online reliable
              (λ _ _ _, raise ValueError)
              (Sample.text_from Sample.student "/buy") 42 "6m" Sample.w0)
    as [_ Hon].
  split.
  - exact (proj1 (Hoff eq_refl)).
  - apply Hon; [reflexivity|].
    by apply (bool_decide_eq_false_1 ("6m" ∈ PLANS.*1)).
Defined.

(** ** Further instances *)

Lemma premium_is_monotone_witness :
  let w := (make_premium_cmd Sample.cfg reliable
              (Sample.text_from Sample.admin "/make_premium 42")
              Sample.w_catalogue).2 in
  user_is_premium_sync (store w) 42 = true ∧
  user_is_premium_sync
    (store
       (run_session Sample.cfg Sample.clock (Sample.fails_at 7)
          [op_menu_cmd (Sample.text_from Sample.student "/menu");
           op_redeem_cmd (Sample.text_from Sample.student "/redeem TXN123");
           op_make_premium_cmd
             (Sample.text_from Sample.admin "/make_premium 42");
           op_admin_doc_handler
             (Sample.upload_from Sample.admin "9|Quizzes|Physics|Ch-1|Q1|Y"
                "file-3");
           op_addquiz_cmd (Sample.text_from Sample.admin "/addquiz oops");
           op_send_items 42 "10" "PYQ" "Maths" "Ch-4 Trig" 0;
           op_send_documents_by_range 42 "10" "PYQ" "Maths" "Ch-4 Trig" 0 2;
           op_quiz_cmd (Sample.text_from Sample.student "/quiz 10 Maths") 3;
           op_stats_cmd (Sample.text_from Sample.admin "/stats");
           op_start (Sample.text_from Sample.admin "/start")]
          w))
    42 = true.
Proof.
  intros w. split; [vm_compute; reflexivity|].
  apply (premium_is_monotone Sample.cfg Sample.clock (Sample.fails_at 7)).
  vm_compute. reflexivity.
Defined.

